(** * vsf-flux-view: schemas, defaults and module factory of [src/lib/common.ts]

    The package is glue between a dataflow runtime (@youwol/vsf-core) and a
    rendering library: a configuration schema with default closures, an input
    declaration, a state holder and the factory [moduleCommon].

    The embedding is shallow.  JavaScript values are a small tagged union;
    objects and arrays live in a store and are referred to by location, so that
    "the same object" is equality of references; functions of the host are
    referred to by an identifier whose code is supplied by a [Host] instance.
    Every function of the package is a computation in a state-and-exception
    monad over the store. *)

From Stdlib Require Import ZArith.
From stdpp Require Import gmap strings list fin_maps pretty.

Local Open Scope string_scope.
Local Open Scope list_scope.

(** ** JavaScript values, store and effects *)

Module Js.

(** Locations of objects and arrays in the store. *)
Abbreviation loc := positive (only parsing).

(** Identifiers of the host's function values. *)
Abbreviation fid := nat (only parsing).

(** Numbers are restricted to the integers (no claim needs fractions or NaN);
    a string character stands for one code unit. *)
Inductive value : Type :=
| VUndefined
| VNull
| VBool (b : bool)
| VNum (n : Z)
| VStr (s : string)
| VObj (l : loc)
| VFun (f : fid).

(** A store cell holds the own enumerable data properties of a plain object,
    or the elements of an array. *)
Inductive cell : Type :=
| Obj (props : gmap string value)
| Arr (elems : list value).

Abbreviation heap := (gmap loc cell) (only parsing).

(** What a [throw] carries: the engine's TypeError or any value thrown by
    host code. *)
Inductive exn : Type :=
| TypeError
| Thrown (v : value).

Inductive outcome (A : Type) : Type :=
| Ret (a : A)
| Throw (e : exn).
Arguments Ret {A} a.
Arguments Throw {A} e.

(** Computations read and write the store and either return or throw. *)
Definition M (A : Type) : Type := heap -> outcome A * heap.

Definition ret {A} (a : A) : M A := fun h => (Ret a, h).

Definition throw {A} (e : exn) : M A := fun h => (Throw e, h).

Definition bind {A B} (c : M A) (k : A -> M B) : M B :=
  fun h =>
    match c h with
    | (Ret a, h') => k a h'
    | (Throw e, h') => (Throw e, h')
    end.

Notation "x <- c1 ;; c2" := (bind c1 (fun x => c2))
  (at level 100, c1 at next level, right associativity).

(** The code of a function value: receiver, argument list, effect. *)
Definition code : Type := value -> list value -> M value.

(** The function values that exist in the host program. *)
Class Host : Type := host_code : fid -> code.

(** [v == null], the values on which a property read throws. *)
Definition nullish (v : value) : bool :=
  match v with
  | VUndefined | VNull => true
  | _ => false
  end.

(** ToBoolean. *)
Definition truthy (v : value) : bool :=
  match v with
  | VUndefined | VNull => false
  | VBool b => b
  | VNum n => negb (n =? 0)%Z
  | VStr s => negb (bool_decide (s = ""))
  | VObj _ | VFun _ => true
  end.

(** The i-th argument of a call; absent arguments read as undefined. *)
Definition arg (i : nat) (args : list value) : value :=
  default VUndefined (args !! i).

(** Index-keyed properties ("0", "1", ...) of an array-like. *)
Definition index_props (l : list value) : gmap string value :=
  list_to_map (imap (fun i v => (pretty i, v)) l).

Definition chars (s : string) : list value :=
  (fun c => VStr (String c EmptyString)) <$> String.list_ascii_of_string s.

(** Own enumerable properties, as copied by object spread and Object.assign:
    none for undefined, null, booleans, numbers and functions; the indexed
    characters of a string; the indexed elements of an array. *)
Definition own_props (h : heap) (v : value) : gmap string value :=
  match v with
  | VObj l =>
      match h !! l with
      | Some (Obj props) => props
      | Some (Arr elems) => index_props elems
      | None => ∅
      end
  | VStr s => index_props (chars s)
  | _ => ∅
  end.

(** The value read by [v.k] on a non-nullish [v].  Only own properties are
    looked up: no property name read by this package is defined on a
    built-in prototype.  Inherited properties ([constructor], [__proto__],
    [toString], ...) are not represented, so the read is that of the code for
    the names the package reads and for names that are own properties. *)
Definition lookup_prop (h : heap) (v : value) (k : string) : value :=
  match v with
  | VObj l =>
      match h !! l with
      | Some (Obj props) => default VUndefined (props !! k)
      | Some (Arr elems) =>
          if decide (k = "length") then VNum (Z.of_nat (length elems))
          else default VUndefined (index_props elems !! k)
      | None => VUndefined
      end
  | VStr s =>
      if decide (k = "length") then VNum (Z.of_nat (String.length s))
      else default VUndefined (index_props (chars s) !! k)
  | _ => VUndefined
  end.

(** [v.k]: TypeError on undefined and null. *)
Definition get_prop (v : value) (k : string) : M value :=
  fun h =>
    if nullish v then (Throw TypeError, h) else (Ret (lookup_prop h v k), h).

(** The properties copied by a spread [{ ...v }], read when it is evaluated. *)
Definition spread_props (v : value) : M (gmap string value) :=
  fun h => (Ret (own_props h v), h).

(** A new cell, at a location the store does not use yet. *)
Definition alloc (c : cell) : M loc :=
  fun h => let l := fresh (dom h) in (Ret l, <[l := c]> h).

(** Values with an identity of their own: objects and functions. *)
Definition is_reference (v : value) : bool :=
  match v with
  | VObj _ | VFun _ => true
  | _ => false
  end.

(** [Object.assign(target, source)]: every own enumerable property of the
    source is written on the target with [target[k] = v].  For every key but
    one the write makes (or replaces) an own data property of the target.  The
    key ["__proto__"] is the exception: the write runs the setter inherited
    from [Object.prototype], which makes no own property; it ignores a value
    that is neither an object nor null, and otherwise replaces the target's
    prototype.  A cell holds own properties only, so the prototype itself is
    not represented: when the value is an object or a function, what the new
    prototype does to the later writes (an inherited read-only property makes
    the write throw) is outside the model, and the statements about
    [StateCommon] exclude that case.  The only target in this package is a
    freshly created plain object; other kinds of target are outside the model
    and left as they are. *)
Definition object_assign (target : loc) (source : value) : M value :=
  fun h =>
    match h !! target with
    | Some (Obj props) =>
        (Ret (VObj target),
         <[target := Obj (delete "__proto__" (own_props h source) ∪ props)]> h)
    | _ => (Ret (VObj target), h)
    end.

Section WithHost.
Context `{Host}.

(** [f.call(this, ...args)]: TypeError when [f] is not a function. *)
Definition call (f this : value) (args : list value) : M value :=
  match f with
  | VFun id => host_code id this args
  | _ => throw TypeError
  end.

(** [o.k(...args)]: the property is read first, then called with receiver
    [o]. *)
Definition method_call (o : value) (k : string) (args : list value)
  : M value :=
  f <- get_prop o k ;; call f o args.

End WithHost.

(** The element read by [a[k]] during an iteration. *)
Definition array_get (a : loc) (k : nat) : M value :=
  fun h =>
    match h !! a with
    | Some (Arr elems) => (Ret (default VUndefined (elems !! k)), h)
    | _ => (Ret VUndefined, h)
    end.

(** The loop of Array.prototype.find: [remaining] indices are still to be
    visited, starting at [k]; each element is read when it is visited. *)
Fixpoint find_from (a : loc) (pred : value -> M value)
  (remaining k : nat) : M value :=
  match remaining with
  | O => ret VUndefined
  | S r =>
      v <- array_get a k ;;
      t <- pred v ;;
      if truthy t then ret v else find_from a pred r (S k)
  end.

(** [arr.find(pred)] on an array: the length is read once, before the loop.
    The host declares the receiver as an array.  Reading [find] on undefined
    or null throws; a value that is not an array has no [find] method to call
    (an object carrying a [find] function of its own is outside the model). *)
Definition array_find (arr : value) (pred : value -> M value) : M value :=
  match arr with
  | VObj a =>
      fun h =>
        match h !! a with
        | Some (Arr elems) => find_from a pred (length elems) 0 h
        | _ => (Throw TypeError, h)
        end
  | _ => throw TypeError
  end.

End Js.

Import Js.

(** ** Declarations of the host runtime (@youwol/vsf-core) used by the package *)

Module Contracts.

(** Modelled from the spec: the input contracts of the host runtime, which are
    not part of this package.  [ofUnknown] is the "accept anything" contract;
    [ofPredicate] stands for the contracts that do validate a message. *)
Inductive contract : Type :=
| ofUnknown
| ofPredicate (description : string) (when : value -> bool).

Definition accepts (c : contract) (data : value) : bool :=
  match c with
  | ofUnknown => true
  | ofPredicate _ when => when data
  end.

End Contracts.

Module Modules.

(** A function stored in the schema, applied to its argument list. *)
Definition js_function : Type := list value -> M value.

Definition fn1 (f : value -> M value) : js_function :=
  fun args => f (arg 0 args).

Definition fn2 (f : value -> value -> M value) : js_function :=
  fun args => f (arg 0 args) (arg 1 args).

(** Modelled from the spec: the host's attribute declaration helpers, called
    with a default value and, optionally, an override policy: [override] is
    [Some "final"] for [{ override: 'final' }] and [None] when the second
    argument is absent. *)
Inductive attribute : Type :=
| jsCodeAttribute (default_value : js_function) (override : option string)
| anyObjectAttribute (default_value : gmap string value)
    (override : option string).

(** A schema entry is an attribute or a group of attributes ([options]). *)
Inductive entry : Type :=
| Attr (a : attribute)
| Group (attrs : gmap string attribute).

Record Configuration : Type := { schema : gmap string entry }.

Record InputSlot : Type :=
  { description : string;
    contract : Contracts.contract }.

(** Modelled from the spec: the host's module constructor is opaque; a module
    built by the package is represented by the two arguments handed to
    [new Modules.Implementation(params, fwdParams)]. *)
Record Implementation : Type :=
  { configuration : Configuration;
    inputs : gmap string InputSlot;
    outputs : value -> M value;
    state : value;
    html : value -> M value;
    fwdParams : value }.

End Modules.

(** ** The package: [src/lib/common.ts] *)

Section Common.
Context `{Host}.

(** [schemaCommonBase.vdomMap], default value:
    [(data, module) => { const factory = module.environment['viewsFactory']
       .find((factory) => factory.isCompatible(data)); return factory.view(data) }] *)
Definition default_vdomMap (data module : value) : M value :=
  environment <- get_prop module "environment" ;;
  viewsFactory <- get_prop environment "viewsFactory" ;;
  factory <- array_find viewsFactory
               (fun factory => method_call factory "isCompatible" [data]) ;;
  method_call factory "view" [data].

(** [schemaCommonBase.outputs], default value: [(state) => ({})]. *)
Definition default_outputs (state : value) : M value :=
  l <- alloc (Obj ∅) ;; ret (VObj l).

(** [options.orderOperator], default value: [(data1, data2) => 0]. *)
Definition default_orderOperator (data1 data2 : value) : M value :=
  ret (VNum 0).

Definition schemaCommonBase : gmap string Modules.entry :=
  {[ "vdomMap" :=
       Modules.Attr
         (Modules.jsCodeAttribute (Modules.fn2 default_vdomMap) None);
     "outputs" :=
       Modules.Attr
         (Modules.jsCodeAttribute (Modules.fn1 default_outputs)
            (Some "final"));
     "state" :=
       Modules.Attr (Modules.anyObjectAttribute ∅ (Some "final")) ]}.

(** [{ schema: { ...schemaCommonBase, ...{ containerAttributes, options } } }]:
    the keys of the later spread win. *)
Definition configurationCommon : Modules.Configuration :=
  {| Modules.schema :=
       {[ "containerAttributes" :=
            Modules.Attr
              (Modules.anyObjectAttribute
                 {[ "class" := VStr "d-flex flex-column" ]} None);
          "options" :=
            Modules.Group
              {[ "orderOperator" :=
                   Modules.jsCodeAttribute (Modules.fn2 default_orderOperator)
                     None ]} ]}
       ∪ schemaCommonBase |}.

Definition inputsCommon : gmap string Modules.InputSlot :=
  {[ "input$" :=
       {| Modules.description := "the input stream";
          Modules.contract := Contracts.ofUnknown |} ]}.

(** [new StateCommon(params)]: the instance is created empty, then
    [Object.assign(this, params)] runs. *)
Definition StateCommon (params : value) : M value :=
  this <- alloc (Obj ∅) ;;
  _ <- object_assign this params ;;
  ret (VObj this).

(** [moduleCommon(fwdParams, configInstance, childrenStream)].

    [configInstance.state] is read when the module is built; the two closures
    read [configInstance] when they run.  In [html] the spread copies the
    properties of [containerAttributes] before the projector is called; the
    object under construction cannot be reached by the projector, so its cell
    is created once its properties are known. *)
Definition moduleCommon (fwdParams configInstance childrenStream : value)
  : M Modules.Implementation :=
  state <- get_prop configInstance "state" ;;
  ret {| Modules.configuration := configurationCommon;
         Modules.inputs := inputsCommon;
         Modules.outputs := fun args =>
           outputs <- get_prop configInstance "outputs" ;;
           args_state <- get_prop args "state" ;;
           call outputs configInstance [args_state];
         Modules.state := state;
         Modules.html := fun m =>
           containerAttributes <- get_prop configInstance "containerAttributes" ;;
           spread <- spread_props containerAttributes ;;
           vDomMap <- get_prop configInstance "vDomMap" ;;
           children <- call childrenStream VUndefined [m; vDomMap] ;;
           l <- alloc (Obj (<["children" := children]> spread)) ;;
           ret (VObj l);
         Modules.fwdParams := fwdParams |}.

End Common.

(** ** Vocabulary of the statements *)

Section Vocabulary.
Context `{Host}.

(** The factories registered in the environment of [module], in list order. *)
Definition viewsFactory_of (h : heap) (module : value) (factories : list value)
  : Prop :=
  nullish module = false /\
  nullish (lookup_prop h module "environment") = false /\
  exists a,
    lookup_prop h (lookup_prop h module "environment") "viewsFactory" = VObj a /\
    h !! a = Some (Arr factories).

(** [factory.isCompatible(data)] answers falsy and leaves the store as it is. *)
Definition incompatible (h : heap) (data factory : value) : Prop :=
  exists r,
    method_call factory "isCompatible" [data] h = (Ret r, h) /\
    truthy r = false.

(** [factory.isCompatible(data)] answers truthy, leaving the store [h']. *)
Definition compatible (h : heap) (data factory : value) (h' : heap) : Prop :=
  exists r,
    method_call factory "isCompatible" [data] h = (Ret r, h') /\
    truthy r = true.

(** An own ["__proto__"] key of [params], if there is one, holds neither an
    object nor a function: assigning it does not put an object in front of
    the target's prototype chain. *)
Definition proto_key_inert (h : heap) (params : value) : Prop :=
  forall v, own_props h params !! "__proto__" = Some v -> is_reference v = false.

(** The module built by the factory, rendered for the instance [m]. *)
Definition render (fwdParams configInstance childrenStream m : value)
  : M value :=
  impl <- moduleCommon fwdParams configInstance childrenStream ;;
  Modules.html impl m.

End Vocabulary.

(** ** The use of the comparator *)

(** A number below zero, as a comparator sort reads it. *)
Definition negative (v : value) : bool :=
  match v with
  | VNum n => (n <? 0)%Z
  | _ => false
  end.

(** Modelled from the spec: ordering the children with [orderOperator] is done
    on the projector's side, not in [common.ts].  It is a stable comparator
    sort: each arriving child moves in front of the first child it compares
    strictly below, and stays behind the others. *)
Fixpoint insert_child (cmp : value -> value -> M value) (x : value)
  (placed : list value) : M (list value) :=
  match placed with
  | [] => ret [x]
  | y :: rest =>
      c <- cmp x y ;;
      if negative c then ret (x :: y :: rest)
      else rest' <- insert_child cmp x rest ;; ret (y :: rest')
  end.

Definition order_children (cmp : value -> value -> M value)
  (arrivals : list value) : M (list value) :=
  fold_left (fun acc x => placed <- acc ;; insert_child cmp x placed)
    arrivals (ret []).

(** ** A concrete host program, used to run the package *)

Module Demo.

(** Host functions: a user [vdomMap], a user [outputs] exposing the state, a
    projector with a fixed children list, a projector returning its argument
    list, two compatibility predicates, two view producers and a user
    comparator. *)
Definition user_vdomMap : fid := 0.
Definition user_outputs : fid := 1.
Definition fixed_children : fid := 2.
Definition arguments_of : fid := 3.
Definition never : fid := 4.
Definition always : fid := 5.
Definition text_view : fid := 6.
Definition list_view : fid := 7.
Definition user_orderOperator : fid := 8.

#[export] Instance host : Host :=
  fun f this args =>
    match f with
    | 0 => ret (arg 0 args)
    | 1 => ret (arg 0 args)
    | 2 => ret (VObj 5)
    | 3 => l <- alloc (Arr args) ;; ret (VObj l)
    | 4 => ret (VBool false)
    | 5 => ret (VBool true)
    | 6 =>
        text <- get_prop (arg 0 args) "value" ;;
        l <- alloc (Obj {[ "innerText" := text ]}) ;;
        ret (VObj l)
    | 7 => l <- alloc (Obj {[ "tag" := VStr "ul" ]}) ;; ret (VObj l)
    | 8 => ret (VNum 0)
    | _ => throw TypeError
    end.

(** The store: a configuration instance resolved against the schema's keys
    (1), its state with a [selected$] stream (2, 20), its container attributes
    (3), its options (4), a fixed children list (5), the argument record of the
    output mapper (6), a second configuration whose container attributes carry
    a [children] field (7, 8), a module instance with three view factories
    (10-15), a message (16) and a module instance whose factories all reject
    (17-19). *)
Definition store : heap :=
  list_to_map
    [ (1%positive,
        Obj {[ "vdomMap" := VFun user_vdomMap;
               "outputs" := VFun user_outputs;
               "state" := VObj 2;
               "containerAttributes" := VObj 3;
               "options" := VObj 4 ]});
      (2%positive, Obj {[ "selected$" := VObj 20 ]});
      (3%positive, Obj {[ "class" := VStr "d-flex flex-column" ]});
      (4%positive, Obj {[ "orderOperator" := VFun user_orderOperator ]});
      (5%positive, Arr [VStr "first child"; VStr "second child"]);
      (6%positive, Obj {[ "state" := VObj 2 ]});
      (7%positive,
        Obj {[ "vdomMap" := VFun user_vdomMap;
               "outputs" := VFun user_outputs;
               "state" := VObj 2;
               "containerAttributes" := VObj 8 ]});
      (8%positive,
        Obj {[ "class" := VStr "d-flex"; "children" := VStr "stale" ]});
      (10%positive, Obj {[ "environment" := VObj 11 ]});
      (11%positive, Obj {[ "viewsFactory" := VObj 12 ]});
      (12%positive, Arr [VObj 13; VObj 14; VObj 15]);
      (13%positive,
        Obj {[ "isCompatible" := VFun never; "view" := VFun list_view ]});
      (14%positive,
        Obj {[ "isCompatible" := VFun always; "view" := VFun text_view ]});
      (15%positive,
        Obj {[ "isCompatible" := VFun always; "view" := VFun list_view ]});
      (16%positive, Obj {[ "id" := VNum 1; "value" := VStr "x" ]});
      (17%positive, Obj {[ "environment" := VObj 18 ]});
      (18%positive, Obj {[ "viewsFactory" := VObj 19 ]});
      (19%positive, Arr [VObj 13; VObj 13]);
      (20%positive, Obj ∅) ].

Definition configInstance : value := VObj 1.
Definition configInstance' : value := VObj 7.
Definition module_instance : value := VObj 10.
Definition module_without_match : value := VObj 17.
Definition message : value := VObj 16.

End Demo.

(** ** A second host program, with failing and missing parts *)

Module Faulty.

(** Host functions: a projector that throws, the schema's default [outputs]
    installed as a host function, a compatibility predicate that throws, two
    working predicates and a projector with a constant result. *)
Definition failing_projector : fid := 0.
Definition schema_outputs : fid := 1.
Definition broken_predicate : fid := 2.
Definition never : fid := 3.
Definition always : fid := 4.
Definition constant_children : fid := 5.

#[export] Instance host : Host :=
  fun f this args =>
    match f with
    | 0 => throw (Thrown (VStr "projector failed"))
    | 1 => Modules.fn1 default_outputs args
    | 2 => throw (Thrown (VStr "predicate failed"))
    | 3 => ret (VBool false)
    | 4 => ret (VBool true)
    | 5 => ret (VStr "children")
    | _ => throw TypeError
    end.

(** The store: a configuration instance without [containerAttributes] whose
    [outputs] is the schema's default (1), its state (2), an argument record
    (3), a configuration instance without [outputs] (4), a module instance
    whose second factory has a throwing predicate (5-10), a module instance
    whose compatible factory has no [view] (11-14), a module instance without
    environment (15) and a parameter record (16). *)
Definition store : heap :=
  list_to_map
    [ (1%positive, Obj {[ "outputs" := VFun schema_outputs; "state" := VObj 2 ]});
      (2%positive, Obj ∅);
      (3%positive, Obj {[ "state" := VObj 2 ]});
      (4%positive, Obj {[ "state" := VNull ]});
      (5%positive, Obj {[ "environment" := VObj 6 ]});
      (6%positive, Obj {[ "viewsFactory" := VObj 7 ]});
      (7%positive, Arr [VObj 8; VObj 9; VObj 10]);
      (8%positive, Obj {[ "isCompatible" := VFun never ]});
      (9%positive, Obj {[ "isCompatible" := VFun broken_predicate ]});
      (10%positive,
        Obj {[ "isCompatible" := VFun always;
               "view" := VFun constant_children ]});
      (11%positive, Obj {[ "environment" := VObj 12 ]});
      (12%positive, Obj {[ "viewsFactory" := VObj 13 ]});
      (13%positive, Arr [VObj 8; VObj 14]);
      (14%positive, Obj {[ "isCompatible" := VFun always ]});
      (15%positive, Obj ∅);
      (16%positive, Obj {[ "selected$" := VObj 2 ]}) ].

End Faulty.

(** ** A parameter record with an own [__proto__] key *)

Module Parsed.

(** The store after [JSON.parse('{"__proto__": 5, "selected$": {}}')]: the
    parsed record (1) has an own property named [__proto__], and its
    [selected$] is the object at location 2. *)
Definition store : heap :=
  list_to_map
    [ (1%positive, Obj {[ "__proto__" := VNum 5; "selected$" := VObj 2 ]});
      (2%positive, Obj ∅) ].

Definition params : value := VObj 1.

End Parsed.

(** ** Running the primitives *)

Lemma fresh_unused (h : heap) : h !! fresh (dom h) = None.
Proof. apply not_elem_of_dom, is_fresh. Qed.

Lemma alloc_run (c : cell) (h : heap) :
  alloc c h = (Ret (fresh (dom h)), <[fresh (dom h) := c]> h).
Proof. reflexivity. Qed.

Lemma get_prop_run (v : value) (k : string) (h : heap) :
  nullish v = false -> get_prop v k h = (Ret (lookup_prop h v k), h).
Proof. intros Hv. unfold get_prop. now rewrite Hv. Qed.

Lemma get_prop_nullish (v : value) (k : string) (h : heap) :
  nullish v = true -> get_prop v k h = (Throw TypeError, h).
Proof. intros Hv. unfold get_prop. now rewrite Hv. Qed.

Lemma own_props_alloc (h : heap) (l : loc) (v : value) :
  h !! l = None -> own_props (<[l := Obj ∅]> h) v = own_props h v.
Proof.
  intros Hl. destruct v as [| | | | |p|]; try reflexivity. cbn.
  destruct (decide (l = p)) as [->|Hne].
  - now rewrite lookup_insert_eq, Hl.
  - now rewrite lookup_insert_ne.
Qed.

Lemma lookup_prop_frame (h : heap) (l p : loc) (c : cell) (k : string) :
  p <> l -> lookup_prop (<[l := c]> h) (VObj p) k = lookup_prop h (VObj p) k.
Proof. intros Hne. cbn. now rewrite lookup_insert_ne. Qed.

Lemma lookup_prop_new (h : heap) (l : loc) (props : gmap string value)
  (k : string) :
  lookup_prop (<[l := Obj props]> h) (VObj l) k = default VUndefined (props !! k).
Proof. cbn. now rewrite lookup_insert_eq. Qed.

(** The constructor returns a new object holding the own properties of
    [params], the key ["__proto__"] apart. *)
Lemma StateCommon_run (params : value) (h : heap) :
  StateCommon params h
  = (Ret (VObj (fresh (dom h))),
     <[fresh (dom h) := Obj (delete "__proto__" (own_props h params))]> h).
Proof.
  unfold StateCommon, bind. rewrite alloc_run.
  unfold object_assign. rewrite lookup_insert_eq.
  rewrite own_props_alloc by apply fresh_unused.
  rewrite insert_insert_eq, (right_id_L ∅ (∪)). reflexivity.
Qed.

Lemma own_props_new (h : heap) (l : loc) (props : gmap string value) :
  own_props (<[l := Obj props]> h) (VObj l) = props.
Proof. cbn. now rewrite lookup_insert_eq. Qed.

Section Theorems.
Context `{Host}.

(** C6.  The [outputs] attribute of the configuration schema holds the default
    [(state) => ({})], declared final; for every state and every store it
    returns a new object without any property, whatever the state is, and
    changes nothing else in the store. *)
Theorem default_outputs_empty :
  Modules.schema configurationCommon !! "outputs"
    = Some (Modules.Attr
              (Modules.jsCodeAttribute (Modules.fn1 default_outputs)
                 (Some "final"))) /\
  (forall (state : value) (h : heap),
      exists l,
        default_outputs state h = (Ret (VObj l), <[l := Obj ∅]> h) /\
        h !! l = None /\
        own_props (<[l := Obj ∅]> h) (VObj l) = ∅) /\
  (forall state state' : value, default_outputs state = default_outputs state').
Proof.
  split; [reflexivity |]. split; [| reflexivity].
  intros state h. exists (fresh (dom h)).
  split; [reflexivity |]. split; [apply fresh_unused |].
  cbn. now rewrite lookup_insert_eq.
Qed.

(** C7.  The [options.orderOperator] attribute of the configuration schema
    holds the default [(data1, data2) => 0]: for every two inputs (absent
    arguments included) it returns the number 0 and leaves the store as it
    is. *)
Theorem default_orderOperator_zero :
  (exists options,
      Modules.schema configurationCommon !! "options"
        = Some (Modules.Group options) /\
      options !! "orderOperator"
        = Some (Modules.jsCodeAttribute (Modules.fn2 default_orderOperator)
                  None)) /\
  (forall (data1 data2 : value) (h : heap),
      default_orderOperator data1 data2 h = (Ret (VNum 0), h)) /\
  (forall (args : list value) (h : heap),
      Modules.fn2 default_orderOperator args h = (Ret (VNum 0), h)).
Proof.
  split; [| split; reflexivity].
  eexists. split; reflexivity.
Qed.

(** With the default comparator an arriving child is placed last. *)
Lemma insert_child_default (x : value) (placed : list value) (h : heap) :
  insert_child default_orderOperator x placed h = (Ret (placed ++ [x]), h).
Proof.
  induction placed as [|y rest IH]; [reflexivity |].
  cbn [insert_child]. unfold bind at 1. cbn. unfold bind. now rewrite IH.
Qed.

(** Sorting by the default comparator keeps the children in arrival order
    and leaves the store as it is. *)
Lemma order_children_default (arrivals : list value) (h : heap) :
  order_children default_orderOperator arrivals h = (Ret arrivals, h).
Proof.
  unfold order_children.
  enough (forall (acc : M (list value)) placed,
             (forall h', acc h' = (Ret placed, h')) ->
             fold_left
               (fun acc x =>
                  placed <- acc ;; insert_child default_orderOperator x placed)
               arrivals acc h
             = (Ret (placed ++ arrivals), h)) as Hgen
    by (apply (Hgen (ret []) []); reflexivity).
  induction arrivals as [|x arrivals IH]; intros acc placed Hacc;
    cbn [fold_left].
  - now rewrite app_nil_r, Hacc.
  - rewrite (IH _ (placed ++ [x])).
    + now rewrite <- app_assoc.
    + intros h'. unfold bind. rewrite Hacc. apply insert_child_default.
Qed.

(** C8 (amended).  Let an own [__proto__] key of [params], if there is one,
    hold neither an object nor a function.  Then [new StateCommon(params)]
    returns a new object and touches no other cell of the store; the own
    fields of the instance are the own fields of [params] other than
    [__proto__]; each of them holds the very same value, a reference staying
    the same reference (the referenced cell is shared, not cloned), and
    reading it on the instance gives that value. *)
Theorem StateCommon_shallow_copy (params : value) (h : heap) :
  proto_key_inert h params ->
  exists this h',
    StateCommon params h = (Ret (VObj this), h') /\
    h !! this = None /\
    (forall q, q <> this -> h' !! q = h !! q) /\
    own_props h' (VObj this) = delete "__proto__" (own_props h params) /\
    (forall k v, k <> "__proto__" -> own_props h params !! k = Some v ->
       own_props h' (VObj this) !! k = Some v /\
       lookup_prop h' (VObj this) k = v).
Proof.
  intros _.
  exists (fresh (dom h)),
    (<[fresh (dom h) := Obj (delete "__proto__" (own_props h params))]> h).
  split; [apply StateCommon_run |]. split; [apply fresh_unused |].
  split; [| split].
  - intros q Hq. now rewrite lookup_insert_ne.
  - apply own_props_new.
  - intros k v Hk Hv.
    assert (delete "__proto__" (own_props h params) !! k = Some v) as Hfield
      by (rewrite lookup_delete_ne; [exact Hv | intros Heq; now apply Hk]).
    rewrite own_props_new, lookup_prop_new, Hfield. split; reflexivity.
Qed.

(** The instance built from [{ selected$: S }], where [S] is the stream object
    at location 20: its [selected$] field is the reference [S] itself, and the
    cell of [S] is the one the store already had. *)
Example StateCommon_selected :
  exists this h',
    StateCommon (VObj 2) Demo.store = (Ret (VObj this), h') /\
    lookup_prop h' (VObj this) "selected$" = VObj 20 /\
    h' !! 20%positive = Demo.store !! 20%positive.
Proof.
  eexists _, _. split; [apply StateCommon_run |].
  split; vm_compute; reflexivity.
Qed.

(** *** The module factory *)

(** What a successful call of the factory has built: nothing is written to
    the store, and each closure of the module runs as follows. *)
Lemma moduleCommon_inv (fwd cfg proj : value) (h h' : heap)
  (impl : Modules.Implementation) :
  moduleCommon fwd cfg proj h = (Ret impl, h') ->
  nullish cfg = false /\ h' = h /\
  Modules.configuration impl = configurationCommon /\
  Modules.inputs impl = inputsCommon /\
  Modules.state impl = lookup_prop h cfg "state" /\
  Modules.fwdParams impl = fwd /\
  (forall args h1,
      Modules.outputs impl args h1
      = if nullish args then (Throw TypeError, h1)
        else call (lookup_prop h1 cfg "outputs") cfg
               [lookup_prop h1 args "state"] h1) /\
  (forall m h1,
      Modules.html impl m h1
      = match call proj VUndefined [m; lookup_prop h1 cfg "vDomMap"] h1 with
        | (Ret children, h2) =>
            (Ret (VObj (fresh (dom h2))),
             <[fresh (dom h2) :=
                 Obj (<["children" := children]>
                        (own_props h1 (lookup_prop h1 cfg "containerAttributes")))]>
               h2)
        | (Throw e, h2) => (Throw e, h2)
        end).
Proof.
  unfold moduleCommon, bind, get_prop, ret.
  destruct (nullish cfg) eqn:Hcfg; [discriminate |].
  intros [= <- <-]. cbn [Modules.configuration Modules.inputs Modules.state
    Modules.fwdParams Modules.outputs Modules.html].
  repeat split.
  intros args h1. now destruct (nullish args).
Qed.

(** With a configuration instance that is neither undefined nor null the
    argument of the host's constructor gets built (reading [state] does not
    throw); what the constructor then does belongs to the host. *)
Lemma moduleCommon_total (fwd cfg proj : value) (h : heap) :
  nullish cfg = false ->
  exists impl, moduleCommon fwd cfg proj h = (Ret impl, h).
Proof.
  intros Hcfg. unfold moduleCommon, bind, get_prop, ret. rewrite Hcfg.
  eexists. reflexivity.
Qed.

(** A configuration instance whose keys are those of the schema has no
    [vDomMap] property: the view-producing function hands undefined to the
    projector. *)
Lemma resolved_instance_lacks_vDomMap (h : heap) (c : loc)
  (props : gmap string value) :
  h !! c = Some (Obj props) ->
  dom props = dom (Modules.schema configurationCommon) ->
  lookup_prop h (VObj c) "vDomMap" = VUndefined.
Proof.
  intros Hc Hdom. cbn. rewrite Hc.
  assert (props !! "vDomMap" = None) as ->; [| reflexivity].
  apply not_elem_of_dom. rewrite Hdom. apply not_elem_of_dom. reflexivity.
Qed.

(** C9.  The module built by the factory declares [inputsCommon] as its
    inputs; that declaration has the single key [input$], and the contract of
    [input$] is the host's [ofUnknown], which accepts every message. *)
Theorem inputs_single_channel (fwd cfg proj : value) (h h' : heap)
  (impl : Modules.Implementation) :
  moduleCommon fwd cfg proj h = (Ret impl, h') ->
  Modules.inputs impl = inputsCommon /\
  dom inputsCommon = {[ "input$" ]} /\
  exists slot,
    inputsCommon !! "input$" = Some slot /\
    Modules.contract slot = Contracts.ofUnknown /\
    forall data, Contracts.accepts (Modules.contract slot) data = true.
Proof.
  intros Hrun. apply moduleCommon_inv in Hrun as (_ & _ & _ & Hin & _).
  split; [exact Hin |]. split.
  - unfold inputsCommon. now rewrite dom_singleton_L.
  - eexists. split; [apply lookup_singleton_eq |]. split; reflexivity.
Qed.

(** C5.  The output-derivation function of the module built by the factory,
    applied to an argument record [args], runs exactly as the [outputs]
    function of the configuration instance called on [args.state] (with the
    configuration instance as receiver): same result or same failure, same
    store. *)
Theorem outputs_forwards_state (fwd cfg proj : value) (h0 h0' : heap)
  (impl : Modules.Implementation) (args : value) (h : heap) :
  moduleCommon fwd cfg proj h0 = (Ret impl, h0') ->
  nullish args = false ->
  Modules.outputs impl args h
  = call (lookup_prop h cfg "outputs") cfg [lookup_prop h args "state"] h.
Proof.
  intros Hrun Hargs.
  apply moduleCommon_inv in Hrun as (_ & _ & _ & _ & _ & _ & Hout & _).
  now rewrite Hout, Hargs.
Qed.

(** C2.  When the projector, called by the view-producing function for the
    instance [m], returns [out], the view-producing function returns a new
    object [view] such that every field name of
    [configInstance.containerAttributes] is a field name of [view], the
    [children] field of [view] is [out], and [view] is exactly the container
    attributes merged with [children := out]. *)
Theorem html_merges_children (fwd cfg proj : value) (h0 h0' : heap)
  (impl : Modules.Implementation) (m out : value) (h h' : heap) :
  moduleCommon fwd cfg proj h0 = (Ret impl, h0') ->
  call proj VUndefined [m; lookup_prop h cfg "vDomMap"] h = (Ret out, h') ->
  exists l view,
    Modules.html impl m h = (Ret (VObj l), <[l := Obj view]> h') /\
    h' !! l = None /\
    dom (own_props h (lookup_prop h cfg "containerAttributes")) ⊆ dom view /\
    view !! "children" = Some out /\
    view = <["children" := out]>
             (own_props h (lookup_prop h cfg "containerAttributes")).
Proof.
  intros Hrun Hcall.
  apply moduleCommon_inv in Hrun as (_ & _ & _ & _ & _ & _ & _ & Hhtml).
  eexists (fresh (dom h')), (<["children" := out]> _).
  split; [now rewrite Hhtml, Hcall |].
  split; [apply fresh_unused |].
  split; [rewrite dom_insert_L; set_solver |].
  split; [apply lookup_insert_eq | reflexivity].
Qed.

(** C10.  In the object returned by the view-producing function the
    [children] field is the projector's output, also when
    [configInstance.containerAttributes] has a [children] field of its own
    (the assignment comes after the spread); every other key reads in the
    result exactly as it reads in the container attributes. *)
Theorem html_children_overrides (fwd cfg proj : value) (h0 h0' : heap)
  (impl : Modules.Implementation) (m out : value) (h h' : heap) :
  moduleCommon fwd cfg proj h0 = (Ret impl, h0') ->
  call proj VUndefined [m; lookup_prop h cfg "vDomMap"] h = (Ret out, h') ->
  exists l view,
    Modules.html impl m h = (Ret (VObj l), <[l := Obj view]> h') /\
    h' !! l = None /\
    (forall stale,
       own_props h (lookup_prop h cfg "containerAttributes") !! "children"
       = Some stale ->
       view !! "children" = Some out) /\
    view !! "children" = Some out /\
    (forall k, k <> "children" ->
       view !! k
       = own_props h (lookup_prop h cfg "containerAttributes") !! k).
Proof.
  intros Hrun Hcall.
  apply moduleCommon_inv in Hrun as (_ & _ & _ & _ & _ & _ & _ & Hhtml).
  exists (fresh (dom h')),
    (<["children" := out]>
       (own_props h (lookup_prop h cfg "containerAttributes"))).
  split; [now rewrite Hhtml, Hcall |].
  split; [apply fresh_unused |].
  split; [intros stale _; apply lookup_insert_eq |].
  split; [apply lookup_insert_eq |].
  intros k Hk. now rewrite lookup_insert_ne.
Qed.

(** A failure of the projector leaves the view-producing function with the
    same failure and the same store: nothing is caught or translated. *)
Lemma html_propagates (fwd cfg proj : value) (h0 h0' : heap)
  (impl : Modules.Implementation) (m : value) (e : exn) (h h' : heap) :
  moduleCommon fwd cfg proj h0 = (Ret impl, h0') ->
  call proj VUndefined [m; lookup_prop h cfg "vDomMap"] h = (Throw e, h') ->
  Modules.html impl m h = (Throw e, h').
Proof.
  intros Hrun Hcall.
  apply moduleCommon_inv in Hrun as (_ & _ & _ & _ & _ & _ & _ & Hhtml).
  now rewrite Hhtml, Hcall.
Qed.

(** *** The default [vdomMap] *)

(** The loop of [find] passes over elements on which the predicate answers
    falsy without touching the store. *)
Lemma find_from_skip (a : loc) (pred : value -> M value) (h : heap)
  (tail : list value) (n : nat) :
  forall rest done,
    h !! a = Some (Arr (done ++ rest ++ tail)) ->
    Forall (fun f => exists r, pred f h = (Ret r, h) /\ truthy r = false) rest ->
    find_from a pred (length rest + n) (length done) h
    = find_from a pred n (length done + length rest) h.
Proof.
  induction rest as [|f rest IH]; intros done Ha Hrej; cbn [length].
  - now rewrite Nat.add_0_r.
  - apply Forall_cons in Hrej as [(r & Hr & Hfalsy) Hrej].
    cbn [Nat.add find_from]. unfold bind at 1, array_get. rewrite Ha.
    rewrite lookup_app_r, Nat.sub_diag by lia.
    change (default VUndefined (((f :: rest) ++ tail)%list !! 0)) with f.
    unfold bind at 1. rewrite Hr, Hfalsy.
    specialize (IH (done ++ [f])). rewrite length_app in IH. cbn [length] in IH.
    rewrite Nat.add_1_r in IH. rewrite IH.
    + f_equal. lia.
    + now rewrite <- app_assoc.
    + exact Hrej.
Qed.

(** [find] returns the first element the predicate accepts. *)
Lemma array_find_first (a : loc) (pred : value -> M value) (h h1 : heap)
  (pre post : list value) (f0 r0 : value) :
  h !! a = Some (Arr (pre ++ f0 :: post)) ->
  Forall (fun f => exists r, pred f h = (Ret r, h) /\ truthy r = false) pre ->
  pred f0 h = (Ret r0, h1) ->
  truthy r0 = true ->
  array_find (VObj a) pred h = (Ret f0, h1).
Proof.
  intros Ha Hrej Hacc Htruthy. unfold array_find. rewrite Ha.
  rewrite length_app. cbn [length].
  pose proof (find_from_skip a pred h (f0 :: post) (S (length post)) pre []
                Ha Hrej) as Hskip.
  cbn [length Nat.add] in Hskip. rewrite Hskip.
  cbn [find_from]. unfold bind at 1, array_get. rewrite Ha.
  rewrite lookup_app_r, Nat.sub_diag by lia.
  change (default VUndefined ((f0 :: post) !! 0)) with f0.
  unfold bind. now rewrite Hacc, Htruthy.
Qed.

(** [find] returns undefined when the predicate accepts no element. *)
Lemma array_find_none (a : loc) (pred : value -> M value) (h : heap)
  (elems : list value) :
  h !! a = Some (Arr elems) ->
  Forall (fun f => exists r, pred f h = (Ret r, h) /\ truthy r = false) elems ->
  array_find (VObj a) pred h = (Ret VUndefined, h).
Proof.
  intros Ha Hrej. unfold array_find. rewrite Ha.
  pose proof (find_from_skip a pred h [] 0 elems []) as Hskip.
  cbn [length Nat.add app] in Hskip. rewrite app_nil_r, Nat.add_0_r in Hskip.
  now rewrite (Hskip Ha Hrej).
Qed.

(** The default [vdomMap] reaches the [find] over the registered factories. *)
Lemma default_vdomMap_run (data module : value) (h : heap)
  (factories : list value) :
  viewsFactory_of h module factories ->
  exists a,
    h !! a = Some (Arr factories) /\
    default_vdomMap data module h
    = match array_find (VObj a)
              (fun factory => method_call factory "isCompatible" [data]) h with
      | (Ret factory, h') => method_call factory "view" [data] h'
      | (Throw e, h') => (Throw e, h')
      end.
Proof.
  intros (Hm & He & a & Hvf & Ha). exists a. split; [exact Ha |].
  unfold default_vdomMap. unfold bind at 1. rewrite get_prop_run by exact Hm.
  unfold bind at 1. rewrite get_prop_run by exact He.
  rewrite Hvf. reflexivity.
Qed.

(** C3.  Let the environment of the module instance register the factories
    [pre ++ f0 :: post], where no factory of [pre] is compatible with [data]
    and [f0] is: the default [vdomMap] runs exactly as [f0.view(data)], so it
    returns what the view function of the first compatible factory returns. *)
Theorem default_vdomMap_first_match (data module : value) (h h1 : heap)
  (pre post : list value) (f0 : value) :
  viewsFactory_of h module (pre ++ f0 :: post) ->
  Forall (incompatible h data) pre ->
  compatible h data f0 h1 ->
  default_vdomMap data module h = method_call f0 "view" [data] h1.
Proof.
  intros Hvf Hrej (r0 & Hacc & Htruthy).
  destruct (default_vdomMap_run data module h _ Hvf) as (a & Ha & ->).
  now rewrite (array_find_first a _ h h1 pre post f0 r0).
Qed.

(** C4.  When no registered factory is compatible with [data], the default
    [vdomMap] throws: [find] returns undefined and reading [view] on it is a
    TypeError, which is the outcome of the function itself (nothing catches or
    replaces it) and leaves the store as it was. *)
Theorem default_vdomMap_no_match (data module : value) (h : heap)
  (factories : list value) :
  viewsFactory_of h module factories ->
  Forall (incompatible h data) factories ->
  default_vdomMap data module h = (Throw TypeError, h).
Proof.
  intros Hvf Hrej.
  destruct (default_vdomMap_run data module h _ Hvf) as (a & Ha & ->).
  now rewrite (array_find_none a _ h factories).
Qed.

End Theorems.

(** ** Further behaviour of the package: failures, edge cases, composition *)

Section Behaviour.
Context `{Host}.

(** *** The module factory *)

(** With a configuration instance that is undefined or null the factory
    throws a TypeError: reading [configInstance.state] fails while the argument
    of the host's constructor is built, so the constructor is not reached; the
    store is left as it is. *)
Theorem moduleCommon_nullish_config (fwd cfg proj : value) (h : heap) :
  nullish cfg = true ->
  moduleCommon fwd cfg proj h = (Throw TypeError, h).
Proof.
  intros Hcfg. unfold moduleCommon, bind.
  now rewrite get_prop_nullish by exact Hcfg.
Qed.

(** Without container attributes (the property is absent, undefined or null)
    the view has the single field [children]. *)
Theorem html_without_containerAttributes (fwd cfg proj : value) (h0 h0' : heap)
  (impl : Modules.Implementation) (m out : value) (h h' : heap) :
  moduleCommon fwd cfg proj h0 = (Ret impl, h0') ->
  nullish (lookup_prop h cfg "containerAttributes") = true ->
  call proj VUndefined [m; lookup_prop h cfg "vDomMap"] h = (Ret out, h') ->
  exists l,
    Modules.html impl m h
    = (Ret (VObj l), <[l := Obj {[ "children" := out ]}]> h') /\
    h' !! l = None.
Proof.
  intros Hrun Hca Hcall.
  apply moduleCommon_inv in Hrun as (_ & _ & _ & _ & _ & _ & _ & Hhtml).
  exists (fresh (dom h')). split; [| apply fresh_unused].
  rewrite Hhtml, Hcall.
  destruct (lookup_prop h cfg "containerAttributes"); try discriminate;
    reflexivity.
Qed.

(** A projector that is not a function makes the view-producing function
    throw a TypeError; nothing is written to the store. *)
Theorem html_projector_not_callable (fwd cfg proj : value) (h0 h0' : heap)
  (impl : Modules.Implementation) (m : value) (h : heap) :
  moduleCommon fwd cfg proj h0 = (Ret impl, h0') ->
  (forall f, proj <> VFun f) ->
  Modules.html impl m h = (Throw TypeError, h).
Proof.
  intros Hrun Hproj.
  apply moduleCommon_inv in Hrun as (_ & _ & _ & _ & _ & _ & _ & Hhtml).
  rewrite Hhtml.
  destruct proj as [| | | | | |f]; try reflexivity. now destruct (Hproj f).
Qed.

(** The output-derivation function throws a TypeError, leaving the store as
    it is, when its argument is undefined or null or when
    [configInstance.outputs] is not a function (a missing key included). *)
Theorem outputs_failures (fwd cfg proj : value) (h0 h0' : heap)
  (impl : Modules.Implementation) (args : value) (h : heap) :
  moduleCommon fwd cfg proj h0 = (Ret impl, h0') ->
  nullish args = true \/ (forall f, lookup_prop h cfg "outputs" <> VFun f) ->
  Modules.outputs impl args h = (Throw TypeError, h).
Proof.
  intros Hrun Hbad.
  apply moduleCommon_inv in Hrun as (_ & _ & _ & _ & _ & _ & Hout & _).
  rewrite Hout. destruct (nullish args); [reflexivity |].
  destruct Hbad as [[=] | Hfun].
  destruct (lookup_prop h cfg "outputs") as [| | | | | |f]; try reflexivity.
  now destruct (Hfun f).
Qed.

(** With the schema's default [outputs] as the configured function, the
    module exposes no output: the output-derivation function returns a new
    object without any property, whatever the state in its argument is. *)
Theorem outputs_with_schema_default (fwd cfg proj : value) (h0 h0' : heap)
  (impl : Modules.Implementation) (f : fid) (args : value) (h : heap) :
  (forall this args' h1,
      host_code f this args' h1 = Modules.fn1 default_outputs args' h1) ->
  moduleCommon fwd cfg proj h0 = (Ret impl, h0') ->
  lookup_prop h cfg "outputs" = VFun f ->
  nullish args = false ->
  exists l,
    Modules.outputs impl args h = (Ret (VObj l), <[l := Obj ∅]> h) /\
    h !! l = None /\
    own_props (<[l := Obj ∅]> h) (VObj l) = ∅.
Proof.
  intros Hcode Hrun Hout Hargs.
  apply moduleCommon_inv in Hrun as (_ & _ & _ & _ & _ & _ & Houtputs & _).
  exists (fresh (dom h)). rewrite Houtputs, Hargs, Hout. cbn [call].
  rewrite Hcode. split; [reflexivity |]. split; [apply fresh_unused |].
  cbn. now rewrite lookup_insert_eq.
Qed.

(** *** The default [vdomMap] *)

(** [find] stops at the first element on which the predicate throws. *)
Lemma array_find_throw (a : loc) (pred : value -> M value) (h h1 : heap)
  (pre post : list value) (f0 : value) (e : exn) :
  h !! a = Some (Arr (pre ++ f0 :: post)) ->
  Forall (fun f => exists r, pred f h = (Ret r, h) /\ truthy r = false) pre ->
  pred f0 h = (Throw e, h1) ->
  array_find (VObj a) pred h = (Throw e, h1).
Proof.
  intros Ha Hrej Hthrow. unfold array_find. rewrite Ha.
  rewrite length_app. cbn [length].
  pose proof (find_from_skip a pred h (f0 :: post) (S (length post)) pre []
                Ha Hrej) as Hskip.
  cbn [length Nat.add] in Hskip. rewrite Hskip.
  cbn [find_from]. unfold bind at 1, array_get. rewrite Ha.
  rewrite lookup_app_r, Nat.sub_diag by lia.
  change (default VUndefined ((f0 :: post) !! 0)) with f0.
  unfold bind. now rewrite Hthrow.
Qed.

(** A failure of a compatibility predicate is the failure of the default
    [vdomMap]: when the factories before [f0] are incompatible and
    [f0.isCompatible(data)] throws, the same exception comes out with the
    store the predicate left; no later factory is asked and no view is
    produced. *)
Theorem default_vdomMap_predicate_failure (data module : value) (h h1 : heap)
  (pre post : list value) (f0 : value) (e : exn) :
  viewsFactory_of h module (pre ++ f0 :: post) ->
  Forall (incompatible h data) pre ->
  method_call f0 "isCompatible" [data] h = (Throw e, h1) ->
  default_vdomMap data module h = (Throw e, h1).
Proof.
  intros Hvf Hrej Hthrow.
  destruct (default_vdomMap_run data module h _ Hvf) as (a & Ha & ->).
  now rewrite (array_find_throw a _ h h1 pre post f0 e).
Qed.

(** Without a registry the default [vdomMap] throws a TypeError and leaves
    the store as it is: the module instance is undefined or null, or it has no
    environment, or the environment has no [viewsFactory]. *)
Theorem default_vdomMap_missing_registry (data module : value) (h : heap) :
  nullish module = true \/
  nullish (lookup_prop h module "environment") = true \/
  nullish (lookup_prop h (lookup_prop h module "environment") "viewsFactory")
  = true ->
  default_vdomMap data module h = (Throw TypeError, h).
Proof.
  intros Hmissing. unfold default_vdomMap. unfold bind at 1.
  destruct (nullish module) eqn:Hm;
    [now rewrite get_prop_nullish |].
  rewrite get_prop_run by exact Hm. unfold bind at 1.
  destruct (nullish (lookup_prop h module "environment")) eqn:He;
    [now rewrite get_prop_nullish |].
  rewrite get_prop_run by exact He. unfold bind.
  destruct Hmissing as [[=] | [[=] | Hvf]].
  destruct (lookup_prop h (lookup_prop h module "environment") "viewsFactory");
    try discriminate; reflexivity.
Qed.

(** When the first compatible factory has no [view] function, the default
    [vdomMap] throws a TypeError after the predicates have run. *)
Theorem default_vdomMap_view_not_callable (data module : value) (h h1 : heap)
  (pre post : list value) (f0 : value) :
  viewsFactory_of h module (pre ++ f0 :: post) ->
  Forall (incompatible h data) pre ->
  compatible h data f0 h1 ->
  (forall f, lookup_prop h1 f0 "view" <> VFun f) ->
  default_vdomMap data module h = (Throw TypeError, h1).
Proof.
  intros Hvf Hrej (r0 & Hacc & Htruthy) Hview.
  destruct (default_vdomMap_run data module h _ Hvf) as (a & Ha & ->).
  rewrite (array_find_first a _ h h1 pre post f0 r0) by assumption.
  unfold method_call, bind, get_prop in Hacc |- *.
  destruct (nullish f0); [discriminate |].
  destruct (lookup_prop h1 f0 "view") as [| | | | | |f]; try reflexivity.
  now destruct (Hview f).
Qed.

(** *** The state holder and the default [outputs] *)

(** Parameters without own properties (undefined, null, a boolean, a number,
    a function) give an instance without fields. *)
Theorem StateCommon_without_fields (params : value) (h : heap) :
  (forall l, params <> VObj l) ->
  (forall s, params <> VStr s) ->
  exists this,
    StateCommon params h = (Ret (VObj this), <[this := Obj ∅]> h) /\
    h !! this = None.
Proof.
  intros Hobj Hstr. exists (fresh (dom h)). split; [| apply fresh_unused].
  rewrite StateCommon_run.
  destruct params as [| | | | s | l |]; try reflexivity.
  - now destruct (Hstr s).
  - now destruct (Hobj l).
Qed.

(** The instance is a copy, not an alias, of the parameter object: whatever
    is written to the parameter object afterwards, the own fields of the
    instance stay what they were, and each of them reads as before. *)
Theorem StateCommon_detached (p : loc) (c : cell) (h h' : heap)
  (this : value) :
  h !! p = Some c ->
  proto_key_inert h (VObj p) ->
  StateCommon (VObj p) h = (Ret this, h') ->
  forall c' : cell,
    own_props (<[p := c']> h') this = own_props h' this /\
    (forall k v, own_props h' this !! k = Some v ->
       lookup_prop (<[p := c']> h') this k = v).
Proof.
  intros Hp _ Hrun c'. rewrite StateCommon_run in Hrun.
  injection Hrun as <- <-.
  assert (fresh (dom h) <> p) as Hne.
  { intros Heq. pose proof (fresh_unused h) as Hfresh. congruence. }
  split.
  - cbn. now rewrite lookup_insert_ne, lookup_insert_eq by congruence.
  - intros k v Hk. rewrite lookup_prop_frame by exact Hne.
    rewrite own_props_new in Hk. now rewrite lookup_prop_new, Hk.
Qed.

(** Building an instance from an instance gives a second, distinct object
    with the same own fields, which are the own fields of the original
    parameters other than [__proto__]. *)
Theorem StateCommon_copy (params s1 s2 : value) (h h1 h2 : heap) :
  proto_key_inert h params ->
  StateCommon params h = (Ret s1, h1) ->
  StateCommon s1 h1 = (Ret s2, h2) ->
  s1 <> s2 /\
  own_props h2 s2 = own_props h2 s1 /\
  own_props h2 s1 = delete "__proto__" (own_props h params).
Proof.
  intros _ Hfirst Hsecond.
  rewrite StateCommon_run in Hfirst. injection Hfirst as <- <-.
  rewrite StateCommon_run in Hsecond. injection Hsecond as <- <-.
  cbn [own_props]. rewrite !lookup_insert_eq.
  rewrite (delete_id (delete "__proto__" (own_props h params)))
    by apply lookup_delete_eq.
  set (fields := delete "__proto__" (own_props h params)).
  set (l1 := fresh (dom h)).
  set (h1 := <[l1 := Obj fields]> h).
  set (l2 := fresh (dom h1)).
  assert (l1 <> l2) as Hne.
  { intros Heq. pose proof (fresh_unused h1) as Hfresh. fold l2 in Hfresh.
    rewrite <- Heq in Hfresh. unfold h1 in Hfresh.
    now rewrite lookup_insert_eq in Hfresh. }
  rewrite lookup_insert_ne by congruence. unfold h1.
  rewrite lookup_insert_eq. split; [congruence |]. split; reflexivity.
Qed.

(** Every call of the default [outputs] returns an object of its own: two
    successive calls give two distinct references, both without fields. *)
Theorem default_outputs_fresh_each_call (state state' v1 v2 : value)
  (h h1 h2 : heap) :
  default_outputs state h = (Ret v1, h1) ->
  default_outputs state' h1 = (Ret v2, h2) ->
  v1 <> v2 /\ own_props h2 v1 = ∅ /\ own_props h2 v2 = ∅.
Proof.
  unfold default_outputs, bind, ret. rewrite !alloc_run.
  intros [= <- <-] [= <- <-].
  set (l1 := fresh (dom h)).
  set (h1 := <[l1 := Obj ∅]> h).
  set (l2 := fresh (dom h1)).
  assert (l1 <> l2) as Hne.
  { intros Heq. pose proof (fresh_unused h1) as Hfresh. fold l2 in Hfresh.
    rewrite <- Heq in Hfresh. unfold h1 in Hfresh.
    now rewrite lookup_insert_eq in Hfresh. }
  split; [congruence |]. cbn. split.
  - rewrite lookup_insert_ne by congruence. unfold h1.
    now rewrite lookup_insert_eq.
  - now rewrite lookup_insert_eq.
Qed.

(** *** The schema *)

(** The schema of [configurationCommon] extends [schemaCommonBase]: the
    spread keeps every attribute of the base as it is, and adds exactly the
    keys [containerAttributes] and [options], neither of which replaces a key
    of the base. *)
Theorem schema_extends_base :
  schemaCommonBase ⊆ Modules.schema configurationCommon /\
  dom (Modules.schema configurationCommon)
  = dom schemaCommonBase ∪ {[ "containerAttributes"; "options" ]} /\
  schemaCommonBase !! "containerAttributes" = None /\
  schemaCommonBase !! "options" = None.
Proof.
  split; [| split; [| split; reflexivity]].
  - apply map_union_subseteq_r. apply map_disjoint_dom.
    apply (bool_decide_unpack _). vm_compute. exact I.
  - apply (bool_decide_unpack _). vm_compute. exact I.
Qed.

End Behaviour.

(** *** Instances on the second host program *)

Section FaultyRuns.
Existing Instance Faulty.host.

Lemma moduleCommon_nullish_config_witness :
  nullish VUndefined = true /\
  moduleCommon (VStr "fwd") VUndefined (VFun Faulty.constant_children)
    Faulty.store
  = (Throw TypeError, Faulty.store).
Proof.
  split; [reflexivity |].
  apply (moduleCommon_nullish_config (VStr "fwd") VUndefined
           (VFun Faulty.constant_children) Faulty.store).
  reflexivity.
Defined.

Lemma html_propagates_witness :
  exists impl,
    moduleCommon (VStr "fwd") (VObj 1) (VFun Faulty.failing_projector)
      Faulty.store
    = (Ret impl, Faulty.store) /\
    call (VFun Faulty.failing_projector) VUndefined
      [VObj 5; lookup_prop Faulty.store (VObj 1) "vDomMap"] Faulty.store
    = (Throw (Thrown (VStr "projector failed")), Faulty.store) /\
    Modules.html impl (VObj 5) Faulty.store
    = (Throw (Thrown (VStr "projector failed")), Faulty.store).
Proof.
  eexists. split; [reflexivity |]. split; [reflexivity |].
  apply (html_propagates (VStr "fwd") (VObj 1)
           (VFun Faulty.failing_projector) Faulty.store Faulty.store);
    reflexivity.
Defined.

Lemma html_without_containerAttributes_witness :
  exists impl l,
    moduleCommon (VStr "fwd") (VObj 1) (VFun Faulty.constant_children)
      Faulty.store
    = (Ret impl, Faulty.store) /\
    nullish (lookup_prop Faulty.store (VObj 1) "containerAttributes") = true /\
    Modules.html impl (VObj 5) Faulty.store
    = (Ret (VObj l),
       <[l := Obj {[ "children" := VStr "children" ]}]> Faulty.store).
Proof.
  eexists.
  destruct (html_without_containerAttributes (VStr "fwd") (VObj 1)
              (VFun Faulty.constant_children) Faulty.store Faulty.store _
              (VObj 5) (VStr "children") Faulty.store Faulty.store
              eq_refl eq_refl eq_refl)
    as (l & Hhtml & _).
  exists l. split; [reflexivity |]. split; [reflexivity |]. exact Hhtml.
Defined.

Lemma html_projector_not_callable_witness :
  exists impl,
    moduleCommon (VStr "fwd") (VObj 1) (VStr "no projector") Faulty.store
    = (Ret impl, Faulty.store) /\
    Modules.html impl (VObj 5) Faulty.store = (Throw TypeError, Faulty.store).
Proof.
  eexists. split; [reflexivity |].
  apply (html_projector_not_callable (VStr "fwd") (VObj 1)
           (VStr "no projector") Faulty.store Faulty.store);
    [reflexivity | intros f; discriminate].
Defined.

Lemma outputs_failures_witness :
  exists impl,
    moduleCommon (VStr "fwd") (VObj 4) (VFun Faulty.constant_children)
      Faulty.store
    = (Ret impl, Faulty.store) /\
    lookup_prop Faulty.store (VObj 4) "outputs" = VUndefined /\
    Modules.outputs impl (VObj 3) Faulty.store
    = (Throw TypeError, Faulty.store) /\
    Modules.outputs impl VUndefined Faulty.store
    = (Throw TypeError, Faulty.store).
Proof.
  eexists. split; [reflexivity |]. split; [reflexivity |]. split.
  - apply (outputs_failures (VStr "fwd") (VObj 4)
             (VFun Faulty.constant_children) Faulty.store Faulty.store);
      [reflexivity | right; intros f; vm_compute; discriminate].
  - apply (outputs_failures (VStr "fwd") (VObj 4)
             (VFun Faulty.constant_children) Faulty.store Faulty.store);
      [reflexivity | left; reflexivity].
Defined.

Lemma outputs_with_schema_default_witness :
  exists impl l,
    moduleCommon (VStr "fwd") (VObj 1) (VFun Faulty.constant_children)
      Faulty.store
    = (Ret impl, Faulty.store) /\
    lookup_prop Faulty.store (VObj 1) "outputs" = VFun Faulty.schema_outputs /\
    Modules.outputs impl (VObj 3) Faulty.store
    = (Ret (VObj l), <[l := Obj ∅]> Faulty.store).
Proof.
  eexists.
  destruct (outputs_with_schema_default (VStr "fwd") (VObj 1)
              (VFun Faulty.constant_children) Faulty.store Faulty.store _
              Faulty.schema_outputs (VObj 3) Faulty.store
              (fun _ _ _ => eq_refl) eq_refl eq_refl eq_refl)
    as (l & Hout & _).
  exists l. split; [reflexivity |]. split; [reflexivity |]. exact Hout.
Defined.

Lemma default_vdomMap_predicate_failure_witness :
  viewsFactory_of Faulty.store (VObj 5) ([VObj 8] ++ VObj 9 :: [VObj 10]) /\
  Forall (incompatible Faulty.store (VStr "data")) [VObj 8] /\
  default_vdomMap (VStr "data") (VObj 5) Faulty.store
  = (Throw (Thrown (VStr "predicate failed")), Faulty.store).
Proof.
  assert (viewsFactory_of Faulty.store (VObj 5)
            ([VObj 8] ++ VObj 9 :: [VObj 10])) as Hvf.
  { split; [reflexivity |]. split; [reflexivity |].
    exists 7%positive. split; reflexivity. }
  assert (Forall (incompatible Faulty.store (VStr "data")) [VObj 8]) as Hrej.
  { constructor; [| constructor]. exists (VBool false). split; reflexivity. }
  split; [exact Hvf |]. split; [exact Hrej |].
  exact (default_vdomMap_predicate_failure (VStr "data") (VObj 5)
           Faulty.store Faulty.store [VObj 8] [VObj 10] (VObj 9)
           (Thrown (VStr "predicate failed")) Hvf Hrej eq_refl).
Defined.

Lemma default_vdomMap_missing_registry_witness :
  nullish (lookup_prop Faulty.store (VObj 15) "environment") = true /\
  default_vdomMap (VStr "data") (VObj 15) Faulty.store
  = (Throw TypeError, Faulty.store).
Proof.
  split; [reflexivity |].
  apply (default_vdomMap_missing_registry (VStr "data") (VObj 15)
           Faulty.store).
  right. left. reflexivity.
Defined.

Lemma default_vdomMap_view_not_callable_witness :
  viewsFactory_of Faulty.store (VObj 11) ([VObj 8] ++ VObj 14 :: []) /\
  Forall (incompatible Faulty.store (VStr "data")) [VObj 8] /\
  compatible Faulty.store (VStr "data") (VObj 14) Faulty.store /\
  lookup_prop Faulty.store (VObj 14) "view" = VUndefined /\
  default_vdomMap (VStr "data") (VObj 11) Faulty.store
  = (Throw TypeError, Faulty.store).
Proof.
  assert (viewsFactory_of Faulty.store (VObj 11)
            ([VObj 8] ++ VObj 14 :: [])) as Hvf.
  { split; [reflexivity |]. split; [reflexivity |].
    exists 13%positive. split; reflexivity. }
  assert (Forall (incompatible Faulty.store (VStr "data")) [VObj 8]) as Hrej.
  { constructor; [| constructor]. exists (VBool false). split; reflexivity. }
  assert (compatible Faulty.store (VStr "data") (VObj 14) Faulty.store)
    as Hacc.
  { exists (VBool true). split; reflexivity. }
  split; [exact Hvf |]. split; [exact Hrej |]. split; [exact Hacc |].
  split; [reflexivity |].
  apply (default_vdomMap_view_not_callable (VStr "data") (VObj 11)
           Faulty.store Faulty.store [VObj 8] [] (VObj 14) Hvf Hrej Hacc).
  intros f. vm_compute. discriminate.
Defined.

Lemma StateCommon_without_fields_witness :
  exists this,
    StateCommon VUndefined Faulty.store
    = (Ret (VObj this), <[this := Obj ∅]> Faulty.store) /\
    Faulty.store !! this = None.
Proof.
  apply (StateCommon_without_fields VUndefined Faulty.store);
    intros ?; discriminate.
Defined.

Lemma StateCommon_detached_witness :
  exists this h',
    Faulty.store !! 16%positive = Some (Obj {[ "selected$" := VObj 2 ]}) /\
    proto_key_inert Faulty.store (VObj 16) /\
    StateCommon (VObj 16) Faulty.store = (Ret this, h') /\
    own_props (<[16%positive := Obj ∅]> h') this
    = {[ "selected$" := VObj 2 ]} /\
    lookup_prop (<[16%positive := Obj ∅]> h') this "selected$" = VObj 2.
Proof.
  assert (proto_key_inert Faulty.store (VObj 16)) as Hinert
    by (intros v Hv; vm_compute in Hv; discriminate).
  destruct (StateCommon_detached 16 _ Faulty.store _ _ eq_refl Hinert
              (StateCommon_run (VObj 16) Faulty.store) (Obj ∅))
    as (Hfields & Hreads).
  eexists _, _. split; [reflexivity |]. split; [exact Hinert |].
  split; [apply StateCommon_run |]. split.
  - rewrite Hfields. vm_compute. reflexivity.
  - apply Hreads. vm_compute. reflexivity.
Defined.

Lemma StateCommon_copy_witness :
  exists s1 h1 s2 h2,
    proto_key_inert Faulty.store (VObj 16) /\
    StateCommon (VObj 16) Faulty.store = (Ret s1, h1) /\
    StateCommon s1 h1 = (Ret s2, h2) /\
    s1 <> s2 /\
    own_props h2 s2 = {[ "selected$" := VObj 2 ]}.
Proof.
  assert (proto_key_inert Faulty.store (VObj 16)) as Hinert
    by (intros v Hv; vm_compute in Hv; discriminate).
  pose proof (StateCommon_run (VObj 16) Faulty.store) as Hfirst.
  pose proof (StateCommon_run (VObj (fresh (dom Faulty.store)))
                (<[fresh (dom Faulty.store) :=
                     Obj (delete "__proto__"
                            (own_props Faulty.store (VObj 16)))]>
                   Faulty.store))
    as Hsecond.
  destruct (StateCommon_copy _ _ _ _ _ _ Hinert Hfirst Hsecond)
    as (Hne & Hsame & Horig).
  eexists _, _, _, _.
  split; [exact Hinert |]. split; [exact Hfirst |]. split; [exact Hsecond |].
  split; [exact Hne |]. rewrite Hsame, Horig. vm_compute. reflexivity.
Defined.

Lemma default_outputs_fresh_each_call_witness :
  exists v1 h1 v2 h2,
    default_outputs (VObj 2) Faulty.store = (Ret v1, h1) /\
    default_outputs VNull h1 = (Ret v2, h2) /\
    v1 <> v2 /\ own_props h2 v1 = ∅ /\ own_props h2 v2 = ∅.
Proof.
  eexists _, _, _, _.
  split; [reflexivity |]. split; [reflexivity |].
  apply (default_outputs_fresh_each_call (VObj 2) VNull _ _ Faulty.store
           (<[fresh (dom Faulty.store) := Obj ∅]> Faulty.store) _);
    reflexivity.
Defined.

End FaultyRuns.

(** ** The package run on the concrete host program *)

#[local] Existing Instance Demo.host.

(** C1.  The schema declares the view mapping under the key [vdomMap] and has
    no key [vDomMap]; the configuration instance at location 1 carries the
    schema's top-level keys, with the user's function under [vdomMap].  The
    view-producing function reads [configInstance.vDomMap]: a projector that
    returns its argument list receives exactly two arguments, the module
    instance and undefined, and not the function stored under [vdomMap]. *)
Theorem projector_receives_undefined :
  is_Some (Modules.schema configurationCommon !! "vdomMap") /\
  Modules.schema configurationCommon !! "vDomMap" = None /\
  dom (own_props Demo.store Demo.configInstance)
    = dom (Modules.schema configurationCommon) /\
  lookup_prop Demo.store Demo.configInstance "vdomMap"
    = VFun Demo.user_vdomMap /\
  exists l a h',
    render (VStr "fwd") Demo.configInstance (VFun Demo.arguments_of)
      Demo.module_instance Demo.store
    = (Ret (VObj l), h') /\
    lookup_prop h' (VObj l) "children" = VObj a /\
    h' !! a = Some (Arr [Demo.module_instance; VUndefined]) /\
    VUndefined <> lookup_prop Demo.store Demo.configInstance "vdomMap".
Proof.
  split; [eexists; reflexivity |]. split; [reflexivity |].
  split; [vm_compute; reflexivity |]. split; [reflexivity |].
  exists 22%positive, 21%positive,
    (snd (render (VStr "fwd") Demo.configInstance (VFun Demo.arguments_of)
            Demo.module_instance Demo.store)).
  split; [vm_compute; reflexivity |]. split; [vm_compute; reflexivity |].
  split; [vm_compute; reflexivity |]. vm_compute. discriminate.
Qed.

(** *** Instances of the conditional statements *)

Lemma inputs_single_channel_witness :
  exists impl,
    moduleCommon (VStr "fwd") Demo.configInstance (VFun Demo.fixed_children)
      Demo.store
    = (Ret impl, Demo.store) /\
    Modules.inputs impl = inputsCommon /\
    dom inputsCommon = {[ "input$" ]} /\
    exists slot,
      inputsCommon !! "input$" = Some slot /\
      Modules.contract slot = Contracts.ofUnknown /\
      forall data, Contracts.accepts (Modules.contract slot) data = true.
Proof.
  eexists. split; [reflexivity |].
  apply (inputs_single_channel (VStr "fwd") Demo.configInstance
           (VFun Demo.fixed_children) Demo.store Demo.store).
  reflexivity.
Defined.

Lemma outputs_forwards_state_witness :
  exists impl,
    moduleCommon (VStr "fwd") Demo.configInstance (VFun Demo.fixed_children)
      Demo.store
    = (Ret impl, Demo.store) /\
    nullish (VObj 6) = false /\
    Modules.outputs impl (VObj 6) Demo.store
    = call (lookup_prop Demo.store Demo.configInstance "outputs")
        Demo.configInstance [lookup_prop Demo.store (VObj 6) "state"]
        Demo.store /\
    Modules.outputs impl (VObj 6) Demo.store = (Ret (VObj 2), Demo.store).
Proof.
  eexists. split; [reflexivity |]. split; [reflexivity |].
  split; [| vm_compute; reflexivity].
  apply (outputs_forwards_state (VStr "fwd") Demo.configInstance
           (VFun Demo.fixed_children) Demo.store Demo.store);
    reflexivity.
Defined.

Lemma html_merges_children_witness :
  exists impl l,
    moduleCommon (VStr "fwd") Demo.configInstance (VFun Demo.fixed_children)
      Demo.store
    = (Ret impl, Demo.store) /\
    call (VFun Demo.fixed_children) VUndefined
      [Demo.module_instance;
       lookup_prop Demo.store Demo.configInstance "vDomMap"] Demo.store
    = (Ret (VObj 5), Demo.store) /\
    Modules.html impl Demo.module_instance Demo.store
    = (Ret (VObj l),
       <[l := Obj {[ "class" := VStr "d-flex flex-column";
                     "children" := VObj 5 ]}]> Demo.store).
Proof.
  eexists.
  destruct (html_merges_children (VStr "fwd") Demo.configInstance
              (VFun Demo.fixed_children) Demo.store Demo.store _
              Demo.module_instance (VObj 5) Demo.store Demo.store
              eq_refl eq_refl)
    as (l & view & Hhtml & _ & _ & _ & Hview).
  exists l. split; [reflexivity |]. split; [reflexivity |].
  rewrite Hhtml, Hview. reflexivity.
Defined.

Lemma html_children_overrides_witness :
  exists impl l view,
    moduleCommon (VStr "fwd") Demo.configInstance' (VFun Demo.fixed_children)
      Demo.store
    = (Ret impl, Demo.store) /\
    call (VFun Demo.fixed_children) VUndefined
      [Demo.module_instance;
       lookup_prop Demo.store Demo.configInstance' "vDomMap"] Demo.store
    = (Ret (VObj 5), Demo.store) /\
    own_props Demo.store
      (lookup_prop Demo.store Demo.configInstance' "containerAttributes")
      !! "children"
    = Some (VStr "stale") /\
    Modules.html impl Demo.module_instance Demo.store
    = (Ret (VObj l), <[l := Obj view]> Demo.store) /\
    view !! "children" = Some (VObj 5) /\
    view !! "class" = Some (VStr "d-flex").
Proof.
  eexists.
  destruct (html_children_overrides (VStr "fwd") Demo.configInstance'
              (VFun Demo.fixed_children) Demo.store Demo.store _
              Demo.module_instance (VObj 5) Demo.store Demo.store
              eq_refl eq_refl)
    as (l & view & Hhtml & _ & _ & Hchildren & Hothers).
  exists l, view. split; [reflexivity |]. split; [reflexivity |].
  split; [reflexivity |]. split; [exact Hhtml |]. split; [exact Hchildren |].
  rewrite Hothers by discriminate. reflexivity.
Defined.

Lemma default_vdomMap_first_match_witness :
  viewsFactory_of Demo.store Demo.module_instance
    ([VObj 13] ++ VObj 14 :: [VObj 15]) /\
  Forall (incompatible Demo.store Demo.message) [VObj 13] /\
  compatible Demo.store Demo.message (VObj 14) Demo.store /\
  default_vdomMap Demo.message Demo.module_instance Demo.store
  = method_call (VObj 14) "view" [Demo.message] Demo.store /\
  default_vdomMap Demo.message Demo.module_instance Demo.store
  = (Ret (VObj 21), <[21%positive := Obj {[ "innerText" := VStr "x" ]}]> Demo.store).
Proof.
  assert (viewsFactory_of Demo.store Demo.module_instance
            ([VObj 13] ++ VObj 14 :: [VObj 15])) as Hvf.
  { split; [reflexivity |]. split; [reflexivity |].
    exists 12%positive. split; reflexivity. }
  assert (Forall (incompatible Demo.store Demo.message) [VObj 13]) as Hrej.
  { constructor; [| constructor]. exists (VBool false). split; reflexivity. }
  assert (compatible Demo.store Demo.message (VObj 14) Demo.store) as Hacc.
  { exists (VBool true). split; reflexivity. }
  split; [exact Hvf |]. split; [exact Hrej |]. split; [exact Hacc |].
  split.
  - exact (default_vdomMap_first_match Demo.message Demo.module_instance
             Demo.store Demo.store [VObj 13] [VObj 15] (VObj 14)
             Hvf Hrej Hacc).
  - vm_compute. reflexivity.
Defined.

Lemma default_vdomMap_no_match_witness :
  viewsFactory_of Demo.store Demo.module_without_match [VObj 13; VObj 13] /\
  Forall (incompatible Demo.store Demo.message) [VObj 13; VObj 13] /\
  default_vdomMap Demo.message Demo.module_without_match Demo.store
  = (Throw TypeError, Demo.store).
Proof.
  assert (viewsFactory_of Demo.store Demo.module_without_match
            [VObj 13; VObj 13]) as Hvf.
  { split; [reflexivity |]. split; [reflexivity |].
    exists 19%positive. split; reflexivity. }
  assert (Forall (incompatible Demo.store Demo.message) [VObj 13; VObj 13]) as Hrej.
  { repeat constructor; exists (VBool false); split; reflexivity. }
  split; [exact Hvf |]. split; [exact Hrej |].
  exact (default_vdomMap_no_match Demo.message Demo.module_without_match
           Demo.store [VObj 13; VObj 13] Hvf Hrej).
Defined.

(** The parameter record [{ selected$: S }] of the first host program. *)
Lemma StateCommon_shallow_copy_witness :
  proto_key_inert Demo.store (VObj 2) /\
  exists this h',
    StateCommon (VObj 2) Demo.store = (Ret (VObj this), h') /\
    Demo.store !! this = None /\
    own_props h' (VObj this) = {[ "selected$" := VObj 20 ]} /\
    lookup_prop h' (VObj this) "selected$" = VObj 20.
Proof.
  assert (proto_key_inert Demo.store (VObj 2)) as Hinert
    by (intros v Hv; vm_compute in Hv; discriminate).
  split; [exact Hinert |].
  destruct (StateCommon_shallow_copy (VObj 2) Demo.store Hinert)
    as (this & h' & Hrun & Hfresh & _ & Hfields & Hcopy).
  exists this, h'. split; [exact Hrun |]. split; [exact Hfresh |]. split.
  - rewrite Hfields. vm_compute. reflexivity.
  - apply (Hcopy "selected$" (VObj 20)); [discriminate | reflexivity].
Defined.

(** The instance built from the parsed record has the single field
    [selected$]. *)
Example StateCommon_parsed_record :
  exists this h',
    StateCommon Parsed.params Parsed.store = (Ret (VObj this), h') /\
    own_props h' (VObj this) = {[ "selected$" := VObj 2 ]}.
Proof.
  eexists _, _. split; [apply StateCommon_run |].
  rewrite own_props_new. vm_compute. reflexivity.
Qed.

(** C8, as stated, fails on a parameter record with an own [__proto__] key:
    the record parsed from [{"__proto__": 5, "selected$": {}}] has the field
    [__proto__] with value 5, and the instance built from it has no such
    field (its [selected$] is copied). *)
Lemma StateCommon_proto_key_not_copied :
  ~ (forall (params : value) (h : heap) (k : string) (v : value),
        own_props h params !! k = Some v ->
        exists this h',
          StateCommon params h = (Ret (VObj this), h') /\
          own_props h' (VObj this) !! k = Some v).
Proof.
  intros Hclaim.
  destruct (Hclaim Parsed.params Parsed.store "__proto__" (VNum 5) eq_refl)
    as (this & h' & Hrun & Hfield).
  rewrite StateCommon_run in Hrun. injection Hrun as <- <-.
  rewrite own_props_new, lookup_delete_eq in Hfield. discriminate.
Qed.
